(** * The ann-benchmarks adapter for pyvsag ([Vsag] in
      ann_benchmarks/algorithms/vsag/module.py)

    A shallow embedding of the adapter class and of the calls it makes on
    the native index.

    Conventions of the model.
    - the relations [fit] and [query] follow the calls made on the library
      and the attributes of the object; they carry arrays as lists of real
      numbers, computed exactly, with [astype(np.float32)] and
      [np.ascontiguousarray] as the identity.  What is proved of them
      concerns calls, sizes, ids, parameters and attributes.
    - the numbers numpy computes are modelled a second time, in floating
      point ([NumPy] and the functions [np_...]): a norm can round,
      overflow or underflow, and [astype(np.float32)] rounds.  What the
      arrays hold after lines 47-51 and 69-75 is settled there.
    - a Python dict with string keys is a [gmap string _]; a missing key
      raises [KeyError].
    - a dict handed to [json.dumps] is kept as its tree ([json]); the text
      of the document is not reproduced.
    - a [%]-formatted string is kept as its template and arguments.
    - [print] writes to stdout and touches no attribute; it is not modelled.
    - the native library (pyvsag) is an interface ([PyVsag]); every call the
      adapter makes on it is recorded as an [event]. *)

From Stdlib Require Import ZArith Reals Lra Lia.
From Corelib Require Import SpecFloat.
From stdpp Require Import base option list gmap strings.

(** ** Python values, exceptions, results *)

(** The values that occur as configuration entries and call arguments. *)
Inductive pyval : Type :=
| PyInt (z : Z)
| PyFloat (r : R)
| PyBool (b : bool)
| PyStr (s : string)
| PyNone.

(** Python's [v != 0]. *)
Definition ne_zero (v : pyval) : bool :=
  match v with
  | PyInt z => negb (z =? 0)%Z
  | PyFloat r => if Req_dec_T r 0%R then false else true
  | PyBool b => b
  | PyStr _ => true
  | PyNone => true
  end.

(** A positive integer, as the search interface asks of [ef_search]. *)
Definition is_positive_int (v : pyval) : bool :=
  match v with
  | PyInt z => (0 <? z)%Z
  | _ => false
  end.

Inductive exn : Type :=
| KeyError (key : string)
| IndexError
| AttributeError (attr : string)
| NativeError (what : string).

(** The result of evaluating Python code that may raise. *)
Inductive result (A : Type) : Type :=
| Ok (a : A)
| Raise (e : exn).
Arguments Ok {A} a.
Arguments Raise {A} e.

#[global] Instance result_ret : MRet result := fun A a => Ok a.
#[global] Instance result_bind : MBind result := fun A B f m =>
  match m with
  | Ok a => f a
  | Raise e => Raise e
  end.

(** [d[key]] on a dict. *)
Definition getitem {V : Type} (d : gmap string V) (key : string) : result V :=
  match d !! key with
  | Some v => Ok v
  | None => Raise (KeyError key)
  end.

(** A JSON document, as the tree [json.dumps] serialises. *)
#[warnings="-register-all"]
Inductive json : Type :=
| JVal (v : pyval)
| JObj (fields : list (string * json)).

(** The field [key] of a JSON object. *)
Definition jfield (key : string) (j : json) : option json :=
  match j with
  | JVal _ => None
  | JObj fields => snd <$> find (fun kv => String.eqb (fst kv) key) fields
  end.

(** The keys of a JSON object, in order. *)
Definition jkeys (j : json) : list string :=
  match j with
  | JVal _ => []
  | JObj fields => fst <$> fields
  end.

(** A string built with [template % args]. *)
Inductive fmt_arg : Type :=
| ArgVal (v : pyval)
| ArgDict (d : gmap string pyval).

Record formatted : Type := Fmt { template : string; fmt_args : list fmt_arg }.

(** ** numpy on lists of reals *)

Definition sum_sq (v : list R) : R := foldr (fun x acc => (x * x + acc)%R) 0%R v.

(** [np.linalg.norm(v)] of a one-dimensional array. *)
Definition norm (v : list R) : R := sqrt (sum_sq v).

(** [np.linalg.norm(X, axis=1)]. *)
Definition norm_axis1 (X : list (list R)) : list R := norm <$> X.

(** [r == 0] on a float. *)
Definition is_zero (r : R) : bool := if Req_dec_T r 0%R then true else false.

(** [v / c] for a scalar [c]. *)
Definition vdiv (v : list R) (c : R) : list R := (fun x => (x / c)%R) <$> v.

(** [X.shape[1]] of a two-dimensional array with at least one row. *)
Definition shape1 (X : list (list R)) : nat := length (default [] (X !! 0)).

(** [X[mask] = c]: every component of the selected rows becomes [c]. *)
Definition assign_rows (mask : list bool) (c : R) (X : list (list R)) : list (list R) :=
  zip_with (fun (b : bool) row => if b then (fun _ => c) <$> row else row) mask X.

(** [X /= d[:, np.newaxis]]: row [i] is divided by [d[i]]. *)
Definition div_rows (X : list (list R)) (d : list R) : list (list R) :=
  zip_with vdiv X d.

(** [X.flatten()]. *)
Definition flatten (X : list (list R)) : list R := concat X.

(** [np.arange(n, dtype=np.int64)]. *)
Definition arange (n : nat) : list Z := Z.of_nat <$> seq 0 n.

(** A two-dimensional array of shape [(n, dim)]. *)
Definition rectangular (dim : nat) (X : list (list R)) : Prop :=
  Forall (fun row => length row = dim) X.


(** ** The native library, as the adapter sees it *)

(** The arguments of [index.build(vectors=, ids=, num_elements=, dim=)]. *)
Record build_call : Type := BuildCall {
  bc_vectors : list R;
  bc_ids : list Z;
  bc_num_elements : nat;
  bc_dim : nat
}.

(** The arguments of [index.knn_search(vector=, k=, parameters=)]. *)
Record knn_call : Type := KnnCall {
  kc_vector : list R;
  kc_k : pyval;
  kc_parameters : json
}.

(** A call made on pyvsag. *)
Inductive event : Type :=
| EvIndex (kind : string) (parameters : json)
| EvBuild (c : build_call)
| EvKnn (c : knn_call).

(** pyvsag is native code: each of its entry points is a relation between
    its arguments and what it may do, returning or raising.  [build]
    mutates the native object, so it also relates the object before to the
    object after; [knn_search] reads it. *)
Class PyVsag : Type := {
  Index : Type;
  new_Index : string -> json -> result Index -> Prop;
  build : Index -> build_call -> result unit -> Index -> Prop;
  knn_search : Index -> knn_call -> result (list Z * list R) -> Prop
}.

(** An index is empty when it was built from no vector at all. *)
Definition empty_index `{PyVsag} (idx : Index) : Prop :=
  exists kind cfg idx0 c,
    new_Index kind cfg (Ok idx0) /\ build idx0 c (Ok tt) idx /\ bc_num_elements c = 0.

(** [knn_search] is a function of the index and its arguments. *)
Definition knn_functional `{PyVsag} : Prop :=
  forall idx c r1 r2, knn_search idx c r1 -> knn_search idx c r2 -> r1 = r2.

(** Modelled from the spec: the native [knn_search], which is not among the
    sources.  "knn_search on an empty index returns an empty sequence, not
    an error": on an empty index every call returns, and returns no id. *)
Definition knn_empty_contract `{PyVsag} : Prop :=
  forall idx c, empty_index idx ->
    (exists dists, knn_search idx c (Ok ([], dists))) /\
    (forall r, knn_search idx c r -> exists dists, r = Ok ([], dists)).

(** ** The adapter *)

Section Adapter.
Context `{lib : PyVsag}.

(** The attributes of a [Vsag] object; [_index] is [None] until [fit]
    assigns it. *)
Record Vsag : Type := mkVsag {
  _metric : string;
  _params : gmap string pyval;
  name : formatted;
  _ef : pyval;
  _index : option Index
}.

Definition metric_names : gmap string string :=
  <["angular" := "ip"]> (<["euclidean" := "l2"]> ∅).

Definition __init__ (metric : string) (dim : pyval) (method_param : gmap string pyval)
  : result Vsag :=
  m ← getitem metric_names metric;
  M ← getitem method_param "M";
  let p := <["M" := M]> (∅ : gmap string pyval) in
  efc ← getitem method_param "ef_construction";
  let p := <["efc" := efc]> p in
  let p := <["sq" := PyInt (-1)]> p in
  u ← getitem method_param "use_int8";
  p ← (if ne_zero u then
         u' ← getitem method_param "use_int8"; mret (<["sq" := u']> p)
       else mret p);
  let p := match method_param !! "alpha" with
           | Some a => <["a" := a]> p
           | None => <["a" := PyFloat 1]> p
           end in
  let p := match method_param !! "rs" with
           | Some rs => <["rs" := rs]> p
           | None => <["rs" := PyInt 1]> p
           end in
  mret {| _metric := m;
          _params := p;
          name := Fmt "vsag (%s)" [ArgDict p];
          _ef := PyInt 0;
          _index := None |}.

(** [X[0]] on a two-dimensional array. *)
Definition row0 (X : list (list R)) : result (list R) :=
  match X !! 0 with
  | Some row => Ok row
  | None => Raise IndexError
  end.

(** The dict [index_params] of [fit]. *)
Definition index_params (self : Vsag) (X : list (list R)) : result json :=
  let metric_type := if String.eqb (_metric self) "l2" then "l2" else "ip" in
  r ← row0 X;
  M ← getitem (_params self) "M";
  efc ← getitem (_params self) "efc";
  mret (JObj [("dtype", JVal (PyStr "float32"));
              ("metric_type", JVal (PyStr metric_type));
              ("dim", JVal (PyInt (Z.of_nat (length r))));
              ("hnsw", JObj [("max_degree", JVal M);
                             ("ef_construction", JVal efc)])]).

(** The two in-place statements of [fit] under the ip metric. *)
Definition normalize_rows (X : list (list R)) : list (list R) :=
  let X1 := assign_rows (is_zero <$> norm_axis1 X) (1 / sqrt (INR (shape1 X)))%R X in
  div_rows X1 (norm_axis1 X1).

(** The array [X] as [fit] leaves it. *)
Definition fit_X (self : Vsag) (X : list (list R)) : list (list R) :=
  if String.eqb (_metric self) "ip" then normalize_rows X else X.

(** The arguments of the [build] call of [fit], from the array as it is then. *)
Definition build_args (X : list (list R)) : build_call :=
  {| bc_vectors := flatten X;
     bc_ids := arange (length X);
     bc_num_elements := length X;
     bc_dim := shape1 X |}.

Definition set_index (self : Vsag) (idx : Index) : Vsag :=
  {| _metric := _metric self;
     _params := _params self;
     name := name self;
     _ef := _ef self;
     _index := Some idx |}.

(** [fit self X tr r self' X']: the call makes the calls [tr] on pyvsag,
    ends as [r], and leaves the object as [self'] and the caller's array
    as [X'].  The array is a writable array of floats, on which lines 48
    and 49 do not raise. *)
Inductive fit (self : Vsag) (X : list (list R))
  : list event -> result unit -> Vsag -> list (list R) -> Prop :=
| fit_params_raise e :
    index_params self X = Raise e ->
    fit self X [] (Raise e) self X
| fit_Index_raise cfg e :
    index_params self X = Ok cfg ->
    new_Index "hnsw" cfg (Raise e) ->
    fit self X [EvIndex "hnsw" cfg] (Raise e) self X
| fit_build cfg idx r idx' :
    index_params self X = Ok cfg ->
    new_Index "hnsw" cfg (Ok idx) ->
    build idx (build_args (fit_X self X)) r idx' ->
    fit self X [EvIndex "hnsw" cfg; EvBuild (build_args (fit_X self X))] r
        (set_index self idx') (fit_X self X).

Definition set_query_arguments (self : Vsag) (ef : pyval) : Vsag :=
  {| _metric := _metric self;
     _params := _params self;
     name := Fmt "efs_%s_%s" [ArgVal ef; ArgDict (_params self)];
     _ef := ef;
     _index := _index self |}.

(** The dict [search_params] of [query]. *)
Definition search_params (self : Vsag) : json :=
  JObj [("hnsw", JObj [("ef_search", JVal (_ef self))])].

(** The local [length] of [query], after both tests. *)
Definition query_length (self : Vsag) (v : list R) : R :=
  let length := if String.eqb (_metric self) "ip" then norm v else 1%R in
  if is_zero length then 1%R else length.

Definition query_vec (self : Vsag) (v : list R) : list R :=
  vdiv v (query_length self v).

(** The arguments of the [knn_search] call of [query]. *)
Definition knn_args (self : Vsag) (v : list R) (n : pyval) : knn_call :=
  {| kc_vector := query_vec self v;
     kc_k := n;
     kc_parameters := search_params self |}.

(** [query self v n tr r self']: the call makes the calls [tr] on pyvsag,
    ends as [r] and leaves the object as [self']. *)
Inductive query (self : Vsag) (v : list R) (n : pyval)
  : list event -> result (list Z) -> Vsag -> Prop :=
| query_no_index :
    _index self = None ->
    query self v n [] (Raise (AttributeError "_index")) self
| query_return idx ids dists :
    _index self = Some idx ->
    knn_search idx (knn_args self v n) (Ok (ids, dists)) ->
    query self v n [EvKnn (knn_args self v n)] (Ok ids) self
| query_raise idx e :
    _index self = Some idx ->
    knn_search idx (knn_args self v n) (Raise e) ->
    query self v n [EvKnn (knn_args self v n)] (Raise e) self.

(** The [ef_search] entry of a search-parameters document. *)
Definition ef_search_of (parameters : json) : option pyval :=
  match jfield "hnsw" parameters with
  | Some h => match jfield "ef_search" h with
              | Some (JVal v) => Some v
              | _ => None
              end
  | None => None
  end.

(** ** Sequences of calls on one adapter object *)

Inductive op : Type :=
| Fit (X : list (list R))
| SetQueryArguments (ef : pyval)
| Query (v : list R) (n : pyval).

Inductive step (self : Vsag) : op -> list event -> Vsag -> Prop :=
| step_fit X tr r self' X' :
    fit self X tr r self' X' -> step self (Fit X) tr self'
| step_set_query_arguments ef :
    step self (SetQueryArguments ef) [] (set_query_arguments self ef)
| step_query v n tr r self' :
    query self v n tr r self' -> step self (Query v n) tr self'.

Inductive run : Vsag -> list op -> list event -> Vsag -> Prop :=
| run_nil self : run self [] [] self
| run_cons self o tr self' os tr' self'' :
    step self o tr self' -> run self' os tr' self'' ->
    run self (o :: os) (tr ++ tr') self''.

(** A state is reachable when some sequence of calls leads to it from a
    freshly constructed object. *)
Definition reachable (self : Vsag) : Prop :=
  exists metric dim method_param self0 os tr,
    __init__ metric dim method_param = Ok self0 /\ run self0 os tr self.

(** The argument of the last [set_query_arguments] among [os], or [d]. *)
Fixpoint last_ef (d : pyval) (os : list op) : pyval :=
  match os with
  | [] => d
  | SetQueryArguments ef :: os' => last_ef ef os'
  | _ :: os' => last_ef d os'
  end.

(** No [fit] among the calls. *)
Definition no_fit (os : list op) : Prop :=
  Forall (fun o => match o with Fit _ => False | _ => True end) os.

End Adapter.

(** ** A small index behind the interface *)

(** Modelled from the spec: the native index ([pyvsag.Index] with its
    [build] and [knn_search]), which is not among the sources.  Of the
    specification's Index Facade it keeps the life cycle (created, built
    exactly once, then searchable; a second [build] fails with AlreadyBuilt,
    a search before [build] with NotBuilt), the ids it was built from, and
    results of length at most [k].  It does not rank: a search returns the
    first [k] stored ids, each at distance 0.  It serves to run the adapter
    on concrete inputs. *)
Record flat_index : Type := FlatIndex { fi_built : bool; fi_ids : list Z }.

Definition flat_k (k : pyval) : nat :=
  match k with
  | PyInt z => Z.to_nat z
  | _ => 0
  end.

Definition flat_found (idx : flat_index) (c : knn_call) : list Z :=
  take (flat_k (kc_k c)) (fi_ids idx).

Inductive flat_new : string -> json -> result flat_index -> Prop :=
| flat_new_ok kind cfg :
    flat_new kind cfg (Ok {| fi_built := false; fi_ids := [] |}).

Inductive flat_build : flat_index -> build_call -> result unit -> flat_index -> Prop :=
| flat_build_ok idx c :
    fi_built idx = false ->
    flat_build idx c (Ok tt)
      {| fi_built := true; fi_ids := take (bc_num_elements c) (bc_ids c) |}
| flat_build_again idx c :
    fi_built idx = true ->
    flat_build idx c (Raise (NativeError "AlreadyBuilt")) idx.

Inductive flat_knn : flat_index -> knn_call -> result (list Z * list R) -> Prop :=
| flat_knn_ok idx c :
    fi_built idx = true ->
    flat_knn idx c (Ok (flat_found idx c, (fun _ => 0%R) <$> flat_found idx c))
| flat_knn_not_built idx c :
    fi_built idx = false ->
    flat_knn idx c (Raise (NativeError "NotBuilt")).

Definition FlatLib : PyVsag :=
  {| Index := flat_index;
     new_Index := flat_new;
     build := flat_build;
     knn_search := flat_knn |}.

(** Concrete inputs: the parameters of a benchmark run, a data set with a
    zero row, and the states of one adapter object over [FlatLib]. *)

Definition demo_param : gmap string pyval :=
  <["use_int8" := PyInt 0]> (<["ef_construction" := PyInt 200]> (<["M" := PyInt 16]> ∅)).

Definition demo_params : gmap string pyval :=
  <["rs" := PyInt 1]> (<["a" := PyFloat 1]> (<["sq" := PyInt (-1)]>
    (<["efc" := PyInt 200]> (<["M" := PyInt 16]> ∅)))).

Definition demo_X : list (list R) := [[3; 4]; [0; 0]]%R.

Definition demo_new (metric : string) : @Vsag FlatLib :=
  {| _metric := metric;
     _params := demo_params;
     name := Fmt "vsag (%s)" [ArgDict demo_params];
     _ef := PyInt 0;
     _index := None |}.

Definition demo_built (metric : string) (n : nat) : @Vsag FlatLib :=
  set_index (demo_new metric) {| fi_built := true; fi_ids := arange n |}.

Definition demo_config (metric_type : string) (dim : Z) : json :=
  JObj [("dtype", JVal (PyStr "float32"));
        ("metric_type", JVal (PyStr metric_type));
        ("dim", JVal (PyInt dim));
        ("hnsw", JObj [("max_degree", JVal (PyInt 16));
                       ("ef_construction", JVal (PyInt 200))])].

(** ** Observations on arrays, calls and traces *)

(** How many elements of [l] satisfy [p]. *)
Definition count {A : Type} (p : A -> bool) (l : list A) : nat :=
  length (List.filter p l).

Definition is_Fit (o : op) : bool :=
  match o with Fit _ => true | _ => false end.

Definition is_SetQueryArguments (o : op) : bool :=
  match o with SetQueryArguments _ => true | _ => false end.

Definition is_Query (o : op) : bool :=
  match o with Query _ _ => true | _ => false end.

Definition is_EvIndex (e : event) : bool :=
  match e with EvIndex _ _ => true | _ => false end.

Definition is_EvBuild (e : event) : bool :=
  match e with EvBuild _ => true | _ => false end.

Definition is_EvKnn (e : event) : bool :=
  match e with EvKnn _ => true | _ => false end.

(** The keys of [method_param] that [__init__] reads. *)
Definition init_keys : list string :=
  ["M"; "ef_construction"; "use_int8"; "alpha"; "rs"].

(** The keys of [_params] that [__init__] writes. *)
Definition params_keys : gset string :=
  {["M"]} ∪ {["efc"]} ∪ {["sq"]} ∪ {["a"]} ∪ {["rs"]}.

(** An index whose [build] always fails: it serves to run [fit] through a
    failing [build]. *)
Inductive reject_build : unit -> build_call -> result unit -> unit -> Prop :=
| reject_build_raise c : reject_build tt c (Raise (NativeError "BuildError")) tt.

Inductive reject_knn : unit -> knn_call -> result (list Z * list R) -> Prop :=
| reject_knn_raise c : reject_knn tt c (Raise (NativeError "NotBuilt")).

Definition RejectLib : PyVsag :=
  {| Index := unit;
     new_Index := fun _ _ r => r = Ok tt;
     build := reject_build;
     knn_search := reject_knn |}.

Definition reject_new (metric : string) : @Vsag RejectLib :=
  {| _metric := metric;
     _params := demo_params;
     name := Fmt "vsag (%s)" [ArgDict demo_params];
     _ef := PyInt 0;
     _index := None |}.

(** [method_param] with an entry [__init__] does not read. *)
Definition demo_param_more : gmap string pyval :=
  <["max_elements" := PyInt 1000]> demo_param.

(** ** numpy in floating point *)

(** The entries of a numpy array are floating-point numbers, and lines
    48-51 and 69-75 compute on them in floating point: a norm can round,
    overflow to infinity or underflow to 0.  This interface names the
    operations those lines use, for an array of one dtype (float32 or
    float64).  [linalg_norm v] is [np.linalg.norm(v)] of a one-dimensional
    array (the square root of [v.dot(v)]); [linalg_norm_row row] is the
    entry of [np.linalg.norm(X, axis=1)] for the row [row] (the square root
    of the sum of the squares, added up by [add.reduce]); the two need not
    agree in the last bit.  [inv_sqrt_dim d] is the scalar
    [1.0 / np.sqrt(d)] as stored into the array.  The three laws hold of
    IEEE 754 arithmetic whatever the order of summation. *)
Class NumPy : Type := {
  num : Type;
  num32 : Type;
  num_one : num;
  is_0 : num -> bool;
  is_0_32 : num32 -> bool;
  true_divide : num -> num -> num;
  linalg_norm : list num -> num;
  linalg_norm_row : list num -> num;
  inv_sqrt_dim : nat -> num;
  astype_float32 : num -> num32;
  is_0_one : is_0 num_one = false;
  linalg_norm_zeros :
    forall v, Forall (fun x => is_0 x = true) v -> is_0 (linalg_norm v) = true;
  divide_one_zero :
    forall x, is_0 x = true -> is_0_32 (astype_float32 (true_divide x num_one)) = true
}.

(** A two-dimensional array of shape [(n, dim)], of any entries. *)
Definition np_rectangular {A : Type} (dim : nat) (X : list (list A)) : Prop :=
  Forall (fun row => length row = dim) X.


Section NumPyArrays.
Context `{np : NumPy}.

(** The local [length] of [query], after both tests (lines 69-73): the
    int 1, or the norm of [v] under ip, and 1 again when that is [== 0]. *)
Definition np_query_length (metric : string) (v : list num) : num :=
  let length := if String.eqb metric "ip" then linalg_norm v else num_one in
  if is_0 length then num_one else length.

(** The array [query_vec] of line 75, [(v / length).astype(np.float32)],
    which line 76 hands to [knn_search] as [vector]. *)
Definition np_query_vec (metric : string) (v : list num) : list num32 :=
  (fun x => astype_float32 (true_divide x (np_query_length metric v))) <$> v.








End NumPyArrays.

(** *** IEEE 754 binary64 arrays

    float64 arrays computed with [SpecFloat]: every operation rounds to
    nearest even in binary64, sums run left to right (as [add.reduce] does
    on rows of fewer than 8 entries; a BLAS may add in another order), and
    [astype(np.float32)] rounds a binary64 number to binary32. *)

(** The binary64 number nearest to [m * 2^e]. *)
Definition binary64 (m e : Z) : spec_float := binary_normalize 53 1024 m e false.


Definition ieee_is_0 (x : spec_float) : bool := SFeqb x (S754_zero false).

Definition ieee_sum_squares (v : list spec_float) : spec_float :=
  foldl (fun acc x => SFadd 53 1024 acc (SFmul 53 1024 x x)) (S754_zero false) v.

Definition ieee_norm (v : list spec_float) : spec_float :=
  SFsqrt 53 1024 (ieee_sum_squares v).

Definition ieee_inv_sqrt_dim (d : nat) : spec_float :=
  SFdiv 53 1024 (binary64 1 0) (SFsqrt 53 1024 (binary64 (Z.of_nat d) 0)).

Definition ieee_astype_float32 (x : spec_float) : spec_float :=
  match x with
  | S754_finite s m e => binary_normalize 24 128 (cond_Zopp s (Zpos m)) e s
  | _ => x
  end.

(** Two float64 data sets of shape (2, 4): in the first the square of
    2^600 overflows, in the second the square of 2^-600 underflows. *)
Definition ieee_X_large : list (list spec_float) :=
  [[binary64 1 600; binary64 0 0; binary64 0 0; binary64 0 0];
   [binary64 2 0; binary64 0 0; binary64 0 0; binary64 0 0]].


(** An event of an explicit trace. *)
Ltac event_in :=
  repeat first
    [ apply list_elem_of_singleton; reflexivity
    | apply elem_of_cons; first [left; reflexivity | right] ].

(** * Properties *)

(** ** Exact arithmetic on vectors *)

Section Numeric.
Local Open Scope R_scope.




End Numeric.

(** ** Construction *)

Section Construction.
Context `{lib : PyVsag}.

Lemma metric_names_lookup (metric : string) :
  metric_names !! metric =
    if decide (metric = "angular") then Some "ip"
    else if decide (metric = "euclidean") then Some "l2"
    else None.
Proof.
  unfold metric_names. rewrite !lookup_insert, lookup_empty.
  repeat case_decide; congruence.
Qed.

(** What a successful construction read and what it stored. *)
Lemma init_Ok_inv (metric : string) (dim : pyval) (method_param : gmap string pyval)
    (self : Vsag) :
  __init__ metric dim method_param = Ok self ->
  exists M efc u,
    metric_names !! metric = Some (_metric self) /\
    method_param !! "M" = Some M /\
    method_param !! "ef_construction" = Some efc /\
    method_param !! "use_int8" = Some u /\
    _params self !! "M" = Some M /\
    _params self !! "efc" = Some efc /\
    _params self !! "sq" = Some (if ne_zero u then u else PyInt (-1)) /\
    _ef self = PyInt 0 /\
    _index self = None.
Proof.
  unfold __init__, getitem. intros H.
  destruct (metric_names !! metric) as [m|]; [|discriminate].
  destruct (method_param !! "M") as [M|]; [|discriminate].
  destruct (method_param !! "ef_construction") as [efc|]; [|discriminate].
  destruct (method_param !! "use_int8") as [u|]; [|discriminate].
  exists M, efc, u. simpl in H.
  destruct (ne_zero u); simpl in H;
    destruct (method_param !! "alpha"), (method_param !! "rs");
    injection H as <-; simpl; by simplify_map_eq.
Qed.

(** A construction that finds what it reads succeeds. *)
Lemma init_Ok_intro (metric m : string) (dim : pyval) (method_param : gmap string pyval)
    (M efc u : pyval) :
  metric_names !! metric = Some m ->
  method_param !! "M" = Some M ->
  method_param !! "ef_construction" = Some efc ->
  method_param !! "use_int8" = Some u ->
  exists self, __init__ metric dim method_param = Ok self /\ _metric self = m.
Proof.
  intros Hm HM Hefc Hu. unfold __init__, getitem. rewrite Hm, HM, Hefc, Hu. simpl.
  destruct (ne_zero u); simpl; eexists; split; reflexivity.
Qed.

End Construction.

(** C9: [__init__] raises [KeyError] for every metric other than
    "euclidean" and "angular", and whenever [method_param] lacks one of
    "M", "ef_construction", "use_int8"; with a known metric and the three
    keys present it completes, and has mapped "euclidean" to "l2" and
    "angular" to "ip". *)
Theorem init_raises_KeyError `{lib : PyVsag}
    (metric : string) (dim : pyval) (method_param : gmap string pyval) :
  (metric <> "euclidean" -> metric <> "angular" ->
     __init__ metric dim method_param = Raise (KeyError metric)) /\
  (method_param !! "M" = None \/ method_param !! "ef_construction" = None \/
     method_param !! "use_int8" = None ->
     exists key, __init__ metric dim method_param = Raise (KeyError key)) /\
  (metric = "euclidean" \/ metric = "angular" ->
     is_Some (method_param !! "M") ->
     is_Some (method_param !! "ef_construction") ->
     is_Some (method_param !! "use_int8") ->
     exists self, __init__ metric dim method_param = Ok self /\
       _metric self = if decide (metric = "euclidean") then "l2" else "ip").
Proof.
  split; [|split].
  - intros He Ha. unfold __init__, getitem. rewrite metric_names_lookup.
    rewrite !decide_False by assumption. reflexivity.
  - intros Hmiss. unfold __init__, getitem.
    destruct (metric_names !! metric); [|eexists; reflexivity].
    destruct (method_param !! "M"); [|eexists; reflexivity].
    destruct (method_param !! "ef_construction"); [|eexists; reflexivity].
    destruct (method_param !! "use_int8"); [|eexists; reflexivity].
    destruct Hmiss as [H|[H|H]]; discriminate.
  - intros Hm [M HM] [efc Hefc] [u Hu].
    apply (init_Ok_intro metric _ dim method_param M efc u); try assumption.
    rewrite metric_names_lookup.
    destruct Hm as [-> | ->]; reflexivity.
Qed.

Lemma init_raises_KeyError_witness :
  @__init__ FlatLib "cosine" (PyInt 2) demo_param = Raise (KeyError "cosine") /\
  (exists key, @__init__ FlatLib "angular" (PyInt 2) ∅ = Raise (KeyError key)) /\
  (exists self, @__init__ FlatLib "angular" (PyInt 2) demo_param = Ok self /\
     _metric self = "ip").
Proof.
  split; [|split].
  - apply (init_raises_KeyError (lib := FlatLib) "cosine" (PyInt 2) demo_param);
      discriminate.
  - apply (init_raises_KeyError (lib := FlatLib) "angular" (PyInt 2) ∅).
    left. reflexivity.
  - apply (init_raises_KeyError (lib := FlatLib) "angular" (PyInt 2) demo_param).
    + right. reflexivity.
    + eexists. reflexivity.
    + eexists. reflexivity.
    + eexists. reflexivity.
Defined.

(** ** Row normalisation *)

Section Rows.
Local Open Scope R_scope.


Lemma length_vdiv (v : list R) (c : R) : length (vdiv v c) = length v.
Proof. apply length_fmap. Qed.

Lemma assign_rows_zero_norm (c : R) (X : list (list R)) :
  assign_rows (is_zero <$> norm_axis1 X) c X =
  (fun row => if is_zero (norm row) then (fun _ => c) <$> row else row) <$> X.
Proof.
  unfold assign_rows, norm_axis1.
  rewrite !zip_with_fmap_l. apply zip_with_diag.
Qed.

Lemma div_rows_norm (X : list (list R)) :
  div_rows X (norm_axis1 X) = (fun row => vdiv row (norm row)) <$> X.
Proof.
  unfold div_rows, norm_axis1. rewrite zip_with_fmap_r. apply zip_with_diag.
Qed.

(** The code's two statements, row by row. *)
Lemma normalize_rows_fmap (X : list (list R)) :
  normalize_rows X =
  (fun row => vdiv row (norm row)) <$>
    ((fun row => if is_zero (norm row)
                 then (fun _ => 1 / sqrt (INR (shape1 X))) <$> row
                 else row) <$> X).
Proof.
  unfold normalize_rows. cbv zeta.
  rewrite div_rows_norm, assign_rows_zero_norm. reflexivity.
Qed.

Lemma length_normalize_rows (X : list (list R)) :
  length (normalize_rows X) = length X.
Proof. rewrite normalize_rows_fmap, !length_fmap. reflexivity. Qed.

Lemma shape1_normalize_rows (X : list (list R)) :
  shape1 (normalize_rows X) = shape1 X.
Proof.
  rewrite normalize_rows_fmap. unfold shape1 at 1 3.
  rewrite !list_lookup_fmap. destruct (X !! 0%nat) as [row|]; [|reflexivity].
  simpl. rewrite length_vdiv. destruct (is_zero (norm row)); [|reflexivity].
  apply length_fmap.
Qed.

Lemma shape1_rectangular (dim : nat) (X : list (list R)) :
  rectangular dim X -> X <> [] -> shape1 X = dim.
Proof.
  intros Hrect Hne. destruct X as [|row X]; [congruence|].
  unfold shape1. simpl. apply (Forall_inv Hrect).
Qed.





End Rows.

(** ** [fit] *)

Section Fit.
Context `{lib : PyVsag}.

Lemma length_fit_X (self : Vsag) (X : list (list R)) :
  length (fit_X self X) = length X.
Proof.
  unfold fit_X. destruct (String.eqb (_metric self) "ip"); [|reflexivity].
  apply length_normalize_rows.
Qed.

Lemma shape1_fit_X (self : Vsag) (X : list (list R)) :
  shape1 (fit_X self X) = shape1 X.
Proof.
  unfold fit_X. destruct (String.eqb (_metric self) "ip"); [|reflexivity].
  apply shape1_normalize_rows.
Qed.

(** The one [build] call of [fit], and what precedes it. *)
Lemma fit_build_event (self : Vsag) (X : list (list R)) tr r self' X' (c : build_call) :
  fit self X tr r self' X' -> EvBuild c ∈ tr ->
  c = build_args (fit_X self X) /\ X' = fit_X self X /\ X <> [].
Proof.
  intros Hfit Hin. destruct Hfit as [e He | cfg e Hcfg Hnew | cfg idx r idx' Hcfg Hnew Hb].
  - apply elem_of_nil in Hin. contradiction.
  - apply list_elem_of_singleton in Hin. discriminate.
  - apply elem_of_cons in Hin as [Heq | Hin]; [discriminate|].
    apply list_elem_of_singleton in Hin. injection Hin as ->.
    split; [reflexivity|]. split; [reflexivity|].
    intros ->. discriminate.
Qed.

(** The one constructor call of [fit]. *)
Lemma fit_index_event (self : Vsag) (X : list (list R)) tr r self' X'
    (kind : string) (cfg : json) :
  fit self X tr r self' X' -> EvIndex kind cfg ∈ tr ->
  kind = "hnsw" /\ index_params self X = Ok cfg.
Proof.
  intros Hfit Hin. destruct Hfit as [e He | cfg' e Hcfg Hnew | cfg' idx r idx' Hcfg Hnew Hb].
  - apply elem_of_nil in Hin. contradiction.
  - apply list_elem_of_singleton in Hin. injection Hin as -> ->. auto.
  - apply elem_of_cons in Hin as [Heq | Hin].
    + injection Heq as -> ->. auto.
    + apply list_elem_of_singleton in Hin. discriminate.
Qed.

(** [fit] assigns [_index] at most. *)
Lemma fit_frame (self : Vsag) (X : list (list R)) tr r self' X' :
  fit self X tr r self' X' ->
  _metric self' = _metric self /\ _params self' = _params self /\
  name self' = name self /\ _ef self' = _ef self.
Proof. intros Hfit. destruct Hfit; auto. Qed.

Lemma index_params_Ok_inv (self : Vsag) (X : list (list R)) (cfg : json) :
  index_params self X = Ok cfg ->
  exists row M efc,
    X !! 0 = Some row /\ _params self !! "M" = Some M /\
    _params self !! "efc" = Some efc /\
    cfg = JObj [("dtype", JVal (PyStr "float32"));
                ("metric_type",
                 JVal (PyStr (if String.eqb (_metric self) "l2" then "l2" else "ip")));
                ("dim", JVal (PyInt (Z.of_nat (length row))));
                ("hnsw", JObj [("max_degree", JVal M);
                               ("ef_construction", JVal efc)])].
Proof.
  unfold index_params, row0, getitem. intros H.
  destruct (X !! 0) as [row|]; [|discriminate].
  destruct (_params self !! "M") as [M|]; [|discriminate].
  destruct (_params self !! "efc") as [efc|]; [|discriminate].
  injection H as <-. exists row, M, efc. auto.
Qed.

End Fit.

Lemma demo_fit (metric : string) :
  fit (demo_new metric) demo_X
    [EvIndex "hnsw" (demo_config (if String.eqb metric "l2" then "l2" else "ip") 2);
     EvBuild (build_args (fit_X (demo_new metric) demo_X))]
    (Ok tt) (demo_built metric 2) (fit_X (demo_new metric) demo_X).
Proof.
  assert (Hlen : length (fit_X (demo_new metric) demo_X) = 2)
    by (rewrite length_fit_X; reflexivity).
  assert (Hidx : demo_built metric 2 =
                 set_index (demo_new metric)
                   {| fi_built := true;
                      fi_ids := take (bc_num_elements (build_args (fit_X (demo_new metric) demo_X)))
                                  (bc_ids (build_args (fit_X (demo_new metric) demo_X))) |}).
  { unfold build_args. simpl. rewrite Hlen. reflexivity. }
  rewrite Hidx.
  apply (fit_build (lib := FlatLib) (demo_new metric) demo_X _ {| fi_built := false; fi_ids := [] |}).
  - reflexivity.
  - constructor.
  - apply flat_build_ok. reflexivity.
Qed.

(** ** [query], [set_query_arguments] and sequences of calls *)

Section Calls.
Context `{lib : PyVsag}.

(** [query] assigns no attribute. *)
Lemma query_frame (self : Vsag) (v : list R) (n : pyval) tr r self' :
  query self v n tr r self' -> self' = self.
Proof. intros Hq. destruct Hq; reflexivity. Qed.

(** The one [knn_search] call of [query]. *)
Lemma query_knn_event (self : Vsag) (v : list R) (n : pyval) tr r self' (c : knn_call) :
  query self v n tr r self' -> EvKnn c ∈ tr ->
  c = knn_args self v n /\ exists idx, _index self = Some idx /\
    match r with
    | Ok ids => exists dists, knn_search idx c (Ok (ids, dists))
    | Raise e => knn_search idx c (Raise e)
    end.
Proof.
  intros Hq Hin. destruct Hq as [Hnone | idx ids dists Hidx Hk | idx e Hidx Hk].
  - apply elem_of_nil in Hin. contradiction.
  - apply list_elem_of_singleton in Hin. injection Hin as ->. eauto.
  - apply list_elem_of_singleton in Hin. injection Hin as ->. eauto.
Qed.

Lemma ef_search_of_search_params (self : Vsag) :
  ef_search_of (search_params self) = Some (_ef self).
Proof. reflexivity. Qed.

(** Every call leaves [_metric] and [_params] as they are. *)
Lemma step_config (self : Vsag) (o : op) tr self' :
  step self o tr self' ->
  _metric self' = _metric self /\ _params self' = _params self.
Proof.
  intros Hs. destruct Hs as [X tr r self' X' Hfit | ef | v n tr r self' Hq].
  - apply fit_frame in Hfit. tauto.
  - auto.
  - apply query_frame in Hq. subst. auto.
Qed.

Lemma run_config (self : Vsag) (os : list op) tr self' :
  run self os tr self' ->
  _metric self' = _metric self /\ _params self' = _params self.
Proof.
  induction 1 as [self | self o tr self' os tr' self'' Hs _ IH]; [auto|].
  apply step_config in Hs. destruct IH as [-> ->]. exact Hs.
Qed.

(** Calls other than [fit] leave [_index] as it is, too. *)
Lemma run_no_fit_frame (self : Vsag) (os : list op) tr self' :
  no_fit os -> run self os tr self' ->
  _metric self' = _metric self /\ _params self' = _params self /\
  _index self' = _index self.
Proof.
  intros Hnf Hrun. induction Hrun as [self | self o tr self' os tr' self'' Hs _ IH];
    [auto|].
  apply Forall_cons in Hnf as [Ho Hnf]. specialize (IH Hnf).
  destruct IH as (-> & -> & ->).
  destruct Hs as [X tr r self' X' Hfit | ef | v n tr r self' Hq].
  - contradiction.
  - auto.
  - apply query_frame in Hq. subst. auto.
Qed.

(** [_ef] holds the argument of the last [set_query_arguments]. *)
Lemma run_ef (self : Vsag) (os : list op) tr self' :
  run self os tr self' -> _ef self' = last_ef (_ef self) os.
Proof.
  induction 1 as [self | self o tr self' os tr' self'' Hs _ IH]; [reflexivity|].
  rewrite IH. destruct Hs as [X tr r self' X' Hfit | ef | v n tr r self' Hq].
  - apply fit_frame in Hfit. destruct Hfit as (_ & _ & _ & ->). reflexivity.
  - reflexivity.
  - apply query_frame in Hq. subst. reflexivity.
Qed.

End Calls.

Lemma demo_query (metric : string) (v : list R) (k : nat) :
  query (demo_built metric 2) v (PyInt (Z.of_nat k))
    [EvKnn (knn_args (demo_built metric 2) v (PyInt (Z.of_nat k)))]
    (Ok (take k (arange 2))) (demo_built metric 2).
Proof.
  assert (Hk : take k (arange 2) =
               flat_found {| fi_built := true; fi_ids := arange 2 |}
                 (knn_args (demo_built metric 2) v (PyInt (Z.of_nat k)))).
  { unfold flat_found. simpl. rewrite Nat2Z.id. reflexivity. }
  rewrite Hk.
  eapply (query_return (lib := FlatLib)); [reflexivity|].
  apply flat_knn_ok. reflexivity.
Qed.

Lemma demo_reachable (metric : string) :
  metric = "euclidean" \/ metric = "angular" ->
  reachable (demo_built (if String.eqb metric "euclidean" then "l2" else "ip") 2).
Proof.
  intros Hm. exists metric, (PyInt 2), demo_param.
  exists (demo_new (if String.eqb metric "euclidean" then "l2" else "ip")).
  exists [Fit demo_X]. eexists. split.
  - destruct Hm as [-> | ->]; reflexivity.
  - eapply run_cons; [|apply run_nil].
    eapply step_fit. apply demo_fit.
Qed.

(** ** The vector handed to [knn_search] *)

Section QueryVector.
Context `{lib : PyVsag}.
Local Open Scope R_scope.


End QueryVector.


(** ** The search parameters *)

(** C5, as stated, fails: an object that was constructed and fitted, and on
    which [set_query_arguments] was never called, hands [ef_search = 0] to
    [knn_search]. *)
Lemma query_ef_search_zero :
  exists tr r self' c,
    reachable (demo_built "l2" 2) /\
    query (demo_built "l2" 2) [1; 0]%R (PyInt 1) tr r self' /\
    EvKnn c ∈ tr /\
    ef_search_of (kc_parameters c) = Some (PyInt 0) /\
    is_positive_int (PyInt 0) = false.
Proof.
  exists [EvKnn (knn_args (demo_built "l2" 2) [1; 0]%R (PyInt 1))].
  exists (Ok (take 1 (arange 2))), (demo_built "l2" 2).
  exists (knn_args (demo_built "l2" 2) [1; 0]%R (PyInt 1)).
  split; [apply (demo_reachable "euclidean"); left; reflexivity|].
  split; [apply (demo_query "l2" [1; 0]%R 1)|].
  split; [event_in|].
  split; reflexivity.
Qed.

(** C5, amended: in every reachable state the [ef_search] entry of the
    search parameters handed to [knn_search] is the argument of the last
    [set_query_arguments] call, as it was given, and the integer 0 when
    there was none; it is a positive integer exactly when that is one. *)
Theorem ef_search_is_last_set `{lib : PyVsag}
    (metric : string) (dim : pyval) (method_param : gmap string pyval)
    (self0 self : Vsag) (os : list op) tr0
    (v : list R) (n : pyval) tr r self' (c : knn_call) :
  __init__ metric dim method_param = Ok self0 ->
  run self0 os tr0 self ->
  query self v n tr r self' -> EvKnn c ∈ tr ->
  ef_search_of (kc_parameters c) = Some (last_ef (PyInt 0) os).
Proof.
  intros Hinit Hrun Hq Hin.
  destruct (query_knn_event _ _ _ _ _ _ _ Hq Hin) as [-> _].
  simpl. rewrite ef_search_of_search_params. f_equal.
  apply init_Ok_inv in Hinit as (M & efc & u & _ & _ & _ & _ & _ & _ & _ & Hef & _).
  rewrite <- Hef. apply (run_ef _ _ _ _ Hrun).
Qed.

Lemma ef_search_is_last_set_witness :
  ef_search_of
    (kc_parameters
       (knn_args (set_query_arguments (demo_built "ip" 2) (PyInt 40)) [3; 0]%R (PyInt 1))) =
  Some (PyInt 40).
Proof.
  apply (ef_search_is_last_set (lib := FlatLib) "angular" (PyInt 2) demo_param
           (demo_new "ip") (set_query_arguments (demo_built "ip" 2) (PyInt 40))
           [Fit demo_X; SetQueryArguments (PyInt 10); SetQueryArguments (PyInt 40)]
           ([EvIndex "hnsw" (demo_config "ip" 2);
             EvBuild (build_args (fit_X (demo_new "ip") demo_X))] ++ [] ++ [] ++ [])
           [3; 0]%R (PyInt 1)
           [EvKnn (knn_args (set_query_arguments (demo_built "ip" 2) (PyInt 40))
                     [3; 0]%R (PyInt 1))]
           (Ok (take 1 (arange 2)))
           (set_query_arguments (demo_built "ip" 2) (PyInt 40))).
  - reflexivity.
  - eapply run_cons; [eapply step_fit; apply (demo_fit "ip")|].
    eapply run_cons; [apply step_set_query_arguments|].
    eapply run_cons; [apply step_set_query_arguments|].
    apply run_nil.
  - eapply (query_return (lib := FlatLib)); [reflexivity|].
    apply (flat_knn_ok {| fi_built := true; fi_ids := arange 2 |}). reflexivity.
  - event_in.
Defined.

(** ** What the calls after [fit] leave alone *)

(** C6: after [fit], [set_query_arguments] assigns [_ef] and [name] only,
    [query] assigns nothing, and so no sequence of these two calls changes
    [_metric], [_params] or [_index]. *)
Theorem configuration_frame `{lib : PyVsag}
    (self0 : Vsag) (X : list (list R)) tr0 r0 (self : Vsag) X' :
  fit self0 X tr0 r0 self X' ->
  (forall ef,
     _metric (set_query_arguments self ef) = _metric self /\
     _params (set_query_arguments self ef) = _params self /\
     _index (set_query_arguments self ef) = _index self /\
     _ef (set_query_arguments self ef) = ef) /\
  (forall v n tr r self', query self v n tr r self' -> self' = self) /\
  (forall os tr self', no_fit os -> run self os tr self' ->
     _metric self' = _metric self /\ _params self' = _params self /\
     _index self' = _index self).
Proof.
  intros _. split; [|split].
  - intros ef. auto.
  - intros v n tr r self'. apply query_frame.
  - intros os tr self'. apply run_no_fit_frame.
Qed.

Lemma configuration_frame_witness :
  (forall ef,
     _metric (set_query_arguments (demo_built "ip" 2) ef) = "ip" /\
     _params (set_query_arguments (demo_built "ip" 2) ef) = demo_params /\
     _index (set_query_arguments (demo_built "ip" 2) ef) =
       Some {| fi_built := true; fi_ids := arange 2 |} /\
     _ef (set_query_arguments (demo_built "ip" 2) ef) = ef) /\
  (forall v n tr r self',
     query (demo_built "ip" 2) v n tr r self' -> self' = demo_built "ip" 2) /\
  (forall os tr self',
     no_fit os -> run (demo_built "ip" 2) os tr self' ->
     _metric self' = "ip" /\ _params self' = demo_params /\
     _index self' = Some {| fi_built := true; fi_ids := arange 2 |}).
Proof.
  exact (configuration_frame (lib := FlatLib) (demo_new "ip") demo_X _ (Ok tt)
           (demo_built "ip" 2) (fit_X (demo_new "ip") demo_X) (demo_fit "ip")).
Defined.

(** ** Determinism *)

(** C7: when [knn_search] is a function of the index and its arguments, two
    [query] calls with the same arguments in the same state return the same
    ids (and make the same call and leave the same state). *)
Theorem query_deterministic `{lib : PyVsag}
    (self : Vsag) (v : list R) (n : pyval) tr1 r1 self1 tr2 r2 self2 :
  knn_functional ->
  query self v n tr1 r1 self1 -> query self v n tr2 r2 self2 ->
  r1 = r2 /\ tr1 = tr2 /\ self1 = self2.
Proof.
  intros Hfun H1 H2.
  destruct H1 as [Hn1 | i1 ids1 d1 Hi1 Hk1 | i1 e1 Hi1 Hk1];
    destruct H2 as [Hn2 | i2 ids2 d2 Hi2 Hk2 | i2 e2 Hi2 Hk2];
    try congruence; auto.
  - assert (i1 = i2) as -> by congruence.
    pose proof (Hfun _ _ _ _ Hk1 Hk2) as Heq. injection Heq as -> _. auto.
  - assert (i1 = i2) as -> by congruence.
    pose proof (Hfun _ _ _ _ Hk1 Hk2) as Heq. discriminate.
  - assert (i1 = i2) as -> by congruence.
    pose proof (Hfun _ _ _ _ Hk1 Hk2) as Heq. discriminate.
  - assert (i1 = i2) as -> by congruence.
    pose proof (Hfun _ _ _ _ Hk1 Hk2) as Heq. injection Heq as ->. auto.
Qed.

Lemma flat_knn_functional : @knn_functional FlatLib.
Proof.
  intros idx c r1 r2 H1 H2. destruct H1; inversion H2; subst; congruence.
Qed.

Lemma query_deterministic_witness :
  ~ query (demo_built "ip" 2) [3; 0]%R (PyInt 1)
      [EvKnn (knn_args (demo_built "ip" 2) [3; 0]%R (PyInt 1))] (Ok [])
      (demo_built "ip" 2).
Proof.
  intros Hq.
  destruct (query_deterministic (lib := FlatLib) (demo_built "ip" 2) [3; 0]%R (PyInt 1)
              _ _ _ _ _ _ flat_knn_functional (demo_query "ip" [3; 0]%R 1) Hq)
    as [Heq _].
  discriminate Heq.
Defined.

(** ** The empty index *)

(** C8: when [knn_search] on an empty index returns the empty sequence of
    ids, [query] on an empty index returns, and returns that empty
    sequence. *)
Theorem query_empty_index `{lib : PyVsag}
    (self : Vsag) (idx : Index) (v : list R) (n : pyval) :
  knn_empty_contract ->
  _index self = Some idx -> empty_index idx ->
  query self v n [EvKnn (knn_args self v n)] (Ok []) self /\
  (forall tr r self', query self v n tr r self' -> r = Ok []).
Proof.
  intros Hc Hidx Hempty. split.
  - destruct (Hc idx (knn_args self v n) Hempty) as [[dists Hk] _].
    exact (query_return self v n idx [] dists Hidx Hk).
  - intros tr r self' Hq.
    destruct Hq as [Hnone | idx' ids dists Hidx' Hk | idx' e Hidx' Hk]; [congruence| |].
    + assert (idx' = idx) as -> by congruence.
      destruct (Hc idx (knn_args self v n) Hempty) as [_ Hall].
      destruct (Hall _ Hk) as [dists' Heq]. congruence.
    + assert (idx' = idx) as -> by congruence.
      destruct (Hc idx (knn_args self v n) Hempty) as [_ Hall].
      destruct (Hall _ Hk) as [dists' Heq]. discriminate.
Qed.

Lemma flat_empty_index_inv (idx : flat_index) :
  @empty_index FlatLib idx -> idx = {| fi_built := true; fi_ids := [] |}.
Proof.
  intros (kind & cfg & idx0 & c & Hnew & Hbuild & Hn).
  simpl in Hbuild. inversion Hbuild; subst. rewrite Hn. reflexivity.
Qed.

Lemma flat_knn_empty_contract : @knn_empty_contract FlatLib.
Proof.
  intros idx c Hempty. apply flat_empty_index_inv in Hempty. subst idx. split.
  - pose proof (flat_knn_ok {| fi_built := true; fi_ids := [] |} c eq_refl) as Hk.
    assert (Hf : flat_found {| fi_built := true; fi_ids := [] |} c = [])
      by (unfold flat_found; apply take_nil).
    rewrite Hf in Hk. eexists. exact Hk.
  - intros r Hk. simpl in Hk. inversion Hk; subst; [|discriminate].
    exists []. unfold flat_found. simpl. rewrite take_nil. reflexivity.
Qed.

Lemma demo_empty_index : @empty_index FlatLib {| fi_built := true; fi_ids := [] |}.
Proof.
  exists "hnsw", (demo_config "l2" 2), {| fi_built := false; fi_ids := [] |}.
  exists {| bc_vectors := []; bc_ids := []; bc_num_elements := 0; bc_dim := 2 |}.
  split; [constructor|]. split; [|reflexivity].
  apply (flat_build_ok {| fi_built := false; fi_ids := [] |}). reflexivity.
Qed.

Lemma query_empty_index_witness :
  query (demo_built "l2" 0) [1; 0]%R (PyInt 3)
    [EvKnn (knn_args (demo_built "l2" 0) [1; 0]%R (PyInt 3))] (Ok []) (demo_built "l2" 0) /\
  (forall tr r self',
     query (demo_built "l2" 0) [1; 0]%R (PyInt 3) tr r self' -> r = Ok []).
Proof.
  apply (query_empty_index (lib := FlatLib) (demo_built "l2" 0)
           {| fi_built := true; fi_ids := [] |} [1; 0]%R (PyInt 3)
           flat_knn_empty_contract).
  - reflexivity.
  - exact demo_empty_index.
Defined.

(** ** The index configuration *)

(** C3: whatever [method_param] holds, the configuration [fit] hands to
    [pyvsag.Index] has exactly the fields dtype, metric_type (l2 or ip), dim
    (the length of [X[0]]) and hnsw, the latter with exactly max_degree and
    ef_construction, read from "M" and "ef_construction"; it is determined
    by these, so "use_int8", "alpha" and "rs" have no part in it. *)
Theorem index_config_fields `{lib : PyVsag}
    (metric : string) (dim : pyval) (method_param : gmap string pyval)
    (self0 self : Vsag) (os : list op) tr0
    (X : list (list R)) tr r self' X' (kind : string) (cfg : json) :
  __init__ metric dim method_param = Ok self0 ->
  run self0 os tr0 self ->
  fit self X tr r self' X' -> EvIndex kind cfg ∈ tr ->
  exists row M efc,
    X !! 0 = Some row /\
    method_param !! "M" = Some M /\
    method_param !! "ef_construction" = Some efc /\
    kind = "hnsw" /\
    cfg = JObj [("dtype", JVal (PyStr "float32"));
                ("metric_type",
                 JVal (PyStr (if decide (metric = "euclidean") then "l2" else "ip")));
                ("dim", JVal (PyInt (Z.of_nat (length row))));
                ("hnsw", JObj [("max_degree", JVal M);
                               ("ef_construction", JVal efc)])] /\
    jkeys cfg = ["dtype"; "metric_type"; "dim"; "hnsw"] /\
    jkeys <$> jfield "hnsw" cfg = Some ["max_degree"; "ef_construction"].
Proof.
  intros Hinit Hrun Hfit Hin.
  apply init_Ok_inv in Hinit
    as (M & efc & u & Hmetric & HM & Hefc & _ & HpM & Hpefc & _).
  apply run_config in Hrun as [Hm Hp].
  destruct (fit_index_event _ _ _ _ _ _ _ _ Hfit Hin) as [-> Hcfg].
  apply index_params_Ok_inv in Hcfg as (row & M' & efc' & Hrow & HM' & Hefc' & ->).
  rewrite Hp in HM', Hefc'. rewrite Hm.
  assert (M' = M) as -> by congruence. assert (efc' = efc) as -> by congruence.
  exists row, M, efc. repeat (split; [assumption || reflexivity|]).
  rewrite metric_names_lookup in Hmetric.
  split; [|split; reflexivity].
  repeat case_decide; try discriminate; subst; try discriminate;
    injection Hmetric as <-; reflexivity.
Qed.

Lemma index_config_fields_witness :
  exists row M efc,
    demo_X !! 0 = Some row /\
    demo_param !! "M" = Some M /\
    demo_param !! "ef_construction" = Some efc /\
    "hnsw" = "hnsw" /\
    demo_config "ip" 2 =
      JObj [("dtype", JVal (PyStr "float32"));
            ("metric_type", JVal (PyStr "ip"));
            ("dim", JVal (PyInt (Z.of_nat (length row))));
            ("hnsw", JObj [("max_degree", JVal M);
                           ("ef_construction", JVal efc)])] /\
    jkeys (demo_config "ip" 2) = ["dtype"; "metric_type"; "dim"; "hnsw"] /\
    jkeys <$> jfield "hnsw" (demo_config "ip" 2) = Some ["max_degree"; "ef_construction"].
Proof.
  apply (index_config_fields (lib := FlatLib) "angular" (PyInt 2) demo_param
           (demo_new "ip") (demo_new "ip") [] [] demo_X
           [EvIndex "hnsw" (demo_config "ip" 2);
            EvBuild (build_args (fit_X (demo_new "ip") demo_X))]
           (Ok tt) (demo_built "ip" 2) (fit_X (demo_new "ip") demo_X)
           "hnsw" (demo_config "ip" 2)).
  - reflexivity.
  - apply run_nil.
  - apply (demo_fit "ip").
  - event_in.
Defined.

(** ** The ids and the rows handed to [build] *)

(** C4: for a data set of [n] vectors the ids handed to [build] are
    0, 1, ..., n-1, in this order, so without repetition. *)
Theorem build_ids_dense `{lib : PyVsag}
    (self : Vsag) (X : list (list R)) tr r self' X' (c : build_call) :
  fit self X tr r self' X' -> EvBuild c ∈ tr ->
  length (bc_ids c) = length X /\
  bc_num_elements c = length X /\
  (forall i, i < length X -> bc_ids c !! i = Some (Z.of_nat i)) /\
  NoDup (bc_ids c).
Proof.
  intros Hfit Hin. destruct (fit_build_event _ _ _ _ _ _ _ Hfit Hin) as (-> & _ & _).
  simpl. rewrite length_fit_X. unfold arange. repeat split.
  - rewrite length_fmap, length_seq. reflexivity.
  - intros i Hi. rewrite list_lookup_fmap.
    replace (seq 0 (length X) !! i) with (Some i); [reflexivity|].
    symmetry. apply lookup_seq. auto.
  - apply NoDup_fmap_2; [apply Nat2Z.inj'|apply NoDup_seq].
Qed.

Lemma build_ids_dense_witness :
  bc_ids (build_args (fit_X (demo_new "ip") demo_X)) !! 1 = Some 1%Z.
Proof.
  apply (build_ids_dense (lib := FlatLib) (demo_new "ip") demo_X
           [EvIndex "hnsw" (demo_config "ip" 2);
            EvBuild (build_args (fit_X (demo_new "ip") demo_X))]
           (Ok tt) (demo_built "ip" 2) (fit_X (demo_new "ip") demo_X)
           (build_args (fit_X (demo_new "ip") demo_X))).
  - apply (demo_fit "ip").
  - event_in.
  - simpl. lia.
Defined.

Lemma demo_X_rectangular : rectangular 2 demo_X.
Proof. repeat constructor. Qed.

(** * Further properties *)

(** ** Construction *)

(** X1: a construction that succeeds stores exactly the five parameters M,
    efc, sq, a and rs: M and efc as given, sq as use_int8 unless that equals
    0 (then -1), a as alpha (1.0 when absent), rs as rs (1 when absent); the
    name is built from these parameters, [_ef] is 0 and there is no index
    yet. *)
Theorem init_stored_params `{lib : PyVsag}
    (metric : string) (dim : pyval) (method_param : gmap string pyval) (self : Vsag) :
  __init__ metric dim method_param = Ok self ->
  dom (_params self) = params_keys /\
  _params self !! "M" = method_param !! "M" /\
  _params self !! "efc" = method_param !! "ef_construction" /\
  (exists u, method_param !! "use_int8" = Some u /\
     _params self !! "sq" = Some (if ne_zero u then u else PyInt (-1))) /\
  _params self !! "a" = Some (default (PyFloat 1) (method_param !! "alpha")) /\
  _params self !! "rs" = Some (default (PyInt 1) (method_param !! "rs")) /\
  name self = Fmt "vsag (%s)" [ArgDict (_params self)] /\
  _ef self = PyInt 0 /\
  _index self = None.
Proof.
  unfold __init__, getitem, params_keys. intros H.
  destruct (metric_names !! metric) as [m|]; [|discriminate].
  destruct (method_param !! "M") as [M|]; [|discriminate].
  destruct (method_param !! "ef_construction") as [efc|]; [|discriminate].
  destruct (method_param !! "use_int8") as [u|]; [|discriminate].
  simpl in H.
  destruct (ne_zero u) eqn:Hu; simpl in H;
    destruct (method_param !! "alpha"), (method_param !! "rs");
    injection H as <-; simpl;
    (split; [rewrite !dom_insert_L, dom_empty_L; set_solver|]);
    repeat (split; [by simplify_map_eq|]);
    (split; [exists u; rewrite Hu; by simplify_map_eq|]);
    repeat (split; [by simplify_map_eq|]); reflexivity.
Qed.

Lemma init_stored_params_witness :
  dom (_params (demo_new "ip")) = params_keys /\
  _params (demo_new "ip") !! "M" = demo_param !! "M" /\
  _params (demo_new "ip") !! "efc" = demo_param !! "ef_construction" /\
  (exists u, demo_param !! "use_int8" = Some u /\
     _params (demo_new "ip") !! "sq" = Some (if ne_zero u then u else PyInt (-1))) /\
  _params (demo_new "ip") !! "a" = Some (default (PyFloat 1) (demo_param !! "alpha")) /\
  _params (demo_new "ip") !! "rs" = Some (default (PyInt 1) (demo_param !! "rs")) /\
  name (demo_new "ip") = Fmt "vsag (%s)" [ArgDict (_params (demo_new "ip"))] /\
  _ef (demo_new "ip") = PyInt 0 /\
  _index (demo_new "ip") = None.
Proof.
  apply (init_stored_params (lib := FlatLib) "angular" (PyInt 2) demo_param (demo_new "ip")).
  reflexivity.
Defined.

(** X2: [__init__] raises nothing but [KeyError], and the key it names is
    the first one missing in the order metric, "M", "ef_construction",
    "use_int8". *)
Theorem init_raises_first_missing `{lib : PyVsag}
    (metric : string) (dim : pyval) (method_param : gmap string pyval) (e : exn) :
  __init__ metric dim method_param = Raise e ->
  (metric <> "euclidean" /\ metric <> "angular" /\ e = KeyError metric) \/
  ((metric = "euclidean" \/ metric = "angular") /\
   ((method_param !! "M" = None /\ e = KeyError "M") \/
    (is_Some (method_param !! "M") /\
     ((method_param !! "ef_construction" = None /\ e = KeyError "ef_construction") \/
      (is_Some (method_param !! "ef_construction") /\
       method_param !! "use_int8" = None /\ e = KeyError "use_int8"))))).
Proof.
  unfold __init__, getitem. rewrite metric_names_lookup. intros H.
  destruct (decide (metric = "angular")) as [Ha|Ha];
    [|destruct (decide (metric = "euclidean")) as [He|He]].
  3: { left. injection H as <-. auto. }
  all: right; split; [auto|].
  all: destruct (method_param !! "M") as [M|];
         [|left; injection H as <-; auto].
  all: right; split; [eauto|].
  all: destruct (method_param !! "ef_construction") as [efc|];
         [|left; injection H as <-; auto].
  all: right; split; [eauto|].
  all: destruct (method_param !! "use_int8") as [u|];
         [|injection H as <-; auto].
  all: simpl in H; destruct (ne_zero u); simpl in H; discriminate.
Qed.

Lemma init_raises_first_missing_witness :
  @__init__ FlatLib "angular" (PyInt 2) (delete "ef_construction" demo_param) =
    Raise (KeyError "ef_construction") /\
  (("angular" <> "euclidean" /\ "angular" <> "angular" /\
    KeyError "ef_construction" = KeyError "angular") \/
   (("angular" = "euclidean" \/ "angular" = "angular") /\
    ((delete "ef_construction" demo_param !! "M" = None /\
      KeyError "ef_construction" = KeyError "M") \/
     (is_Some (delete "ef_construction" demo_param !! "M") /\
      ((delete "ef_construction" demo_param !! "ef_construction" = None /\
        KeyError "ef_construction" = KeyError "ef_construction") \/
       (is_Some (delete "ef_construction" demo_param !! "ef_construction") /\
        delete "ef_construction" demo_param !! "use_int8" = None /\
        KeyError "ef_construction" = KeyError "use_int8")))))).
Proof.
  split; [reflexivity|].
  apply (init_raises_first_missing (lib := FlatLib) "angular" (PyInt 2)
           (delete "ef_construction" demo_param) (KeyError "ef_construction")).
  reflexivity.
Defined.

(** X3: [__init__] reads [method_param] at "M", "ef_construction",
    "use_int8", "alpha" and "rs" only, and does not read [dim]: two calls
    that agree on the metric and on these five entries give the same
    object or the same error. *)
Theorem init_reads_five_keys `{lib : PyVsag}
    (metric : string) (dim1 dim2 : pyval) (mp1 mp2 : gmap string pyval) :
  (forall key, key ∈ init_keys -> mp1 !! key = mp2 !! key) ->
  __init__ metric dim1 mp1 = __init__ metric dim2 mp2.
Proof.
  intros Hkeys. unfold __init__, getitem.
  rewrite (Hkeys "M"), (Hkeys "ef_construction"), (Hkeys "use_int8"),
    (Hkeys "alpha"), (Hkeys "rs") by (unfold init_keys; set_solver).
  reflexivity.
Qed.

Lemma init_reads_five_keys_witness :
  @__init__ FlatLib "angular" (PyInt 2) demo_param =
  @__init__ FlatLib "angular" (PyInt 960) demo_param_more.
Proof.
  apply (init_reads_five_keys (lib := FlatLib) "angular" (PyInt 2) (PyInt 960)
           demo_param demo_param_more).
  intros key Hkey. unfold demo_param_more. apply eq_sym, lookup_insert_ne.
  intros <-. unfold init_keys in Hkey.
  repeat (apply elem_of_cons in Hkey as [Hkey|Hkey]; [discriminate|]).
  apply elem_of_nil in Hkey. exact Hkey.
Defined.

(** ** Shapes *)

Section Shapes.
Local Open Scope R_scope.

Lemma rectangular_normalize_rows (dim : nat) (X : list (list R)) :
  rectangular dim X -> rectangular dim (normalize_rows X).
Proof.
  intros Hrect. rewrite normalize_rows_fmap. unfold rectangular.
  rewrite <- list_fmap_compose. apply Forall_fmap.
  eapply Forall_impl; [exact Hrect|]. intros row Hlen. simpl.
  rewrite length_vdiv. destruct (is_zero (norm row)); [|exact Hlen].
  rewrite length_fmap. exact Hlen.
Qed.

Lemma length_flatten_rectangular (dim : nat) (X : list (list R)) :
  rectangular dim X -> length (flatten X) = (length X * dim)%nat.
Proof.
  unfold flatten. induction 1 as [|row X Hrow _ IH]; [reflexivity|].
  simpl. rewrite length_app, IH, Hrow. reflexivity.
Qed.

End Shapes.

(** ** More on [fit] *)

Section FitMore.
Context `{lib : PyVsag}.

Lemma rectangular_fit_X (self : Vsag) (dim : nat) (X : list (list R)) :
  rectangular dim X -> rectangular dim (fit_X self X).
Proof.
  intros Hrect. unfold fit_X. destruct (String.eqb (_metric self) "ip"); [|exact Hrect].
  apply rectangular_normalize_rows. exact Hrect.
Qed.

(** A constructed object keeps what [index_params] reads. *)
Lemma run_index_params (metric : string) (dim : pyval) (method_param : gmap string pyval)
    (self0 self : Vsag) (os : list op) tr0 :
  __init__ metric dim method_param = Ok self0 ->
  run self0 os tr0 self ->
  (_metric self = "l2" \/ _metric self = "ip") /\
  is_Some (_params self !! "M") /\ is_Some (_params self !! "efc").
Proof.
  intros Hinit Hrun.
  apply init_Ok_inv in Hinit as (M & efc & u & Hm & _ & _ & _ & HM & Hefc & _).
  apply run_config in Hrun as [-> ->].
  rewrite metric_names_lookup in Hm. rewrite HM, Hefc.
  split; [|split; eauto].
  repeat case_decide; try discriminate; injection Hm as <-; auto.
Qed.

End FitMore.

(** X4: [fit] on an empty data set raises [IndexError]; it makes no call on
    the library and leaves the object and the array as they were. *)
Theorem fit_empty_IndexError `{lib : PyVsag} (self : Vsag) :
  fit self [] [] (Raise IndexError) self [] /\
  (forall tr r self' X',
     fit self [] tr r self' X' ->
     tr = [] /\ r = Raise IndexError /\ self' = self /\ X' = []).
Proof.
  split.
  - apply fit_params_raise. reflexivity.
  - intros tr r self' X' Hfit.
    destruct Hfit as [e He | cfg e Hcfg Hnew | cfg idx r idx' Hcfg Hnew Hb];
      try discriminate.
    injection He as <-. auto.
Qed.

(** X5: on an object that [__init__] has constructed, whatever was called
    on it since, [fit] on a data set with at least one row does not fail
    before the library is reached: its first call is the constructor
    [pyvsag.Index("hnsw", ...)], with the object's metric as metric_type. *)
Theorem fit_reaches_constructor `{lib : PyVsag}
    (metric : string) (dim : pyval) (method_param : gmap string pyval)
    (self0 self : Vsag) (os : list op) tr0
    (X : list (list R)) tr r self' X' :
  __init__ metric dim method_param = Ok self0 ->
  run self0 os tr0 self ->
  X <> [] ->
  fit self X tr r self' X' ->
  exists cfg rest,
    tr = EvIndex "hnsw" cfg :: rest /\
    index_params self X = Ok cfg /\
    jfield "metric_type" cfg = Some (JVal (PyStr (_metric self))).
Proof.
  intros Hinit Hrun Hne Hfit.
  destruct (run_index_params _ _ _ _ _ _ _ Hinit Hrun) as (Hm & [M HM] & [efc Hefc]).
  assert (Hcfg : exists cfg, index_params self X = Ok cfg /\
                   jfield "metric_type" cfg = Some (JVal (PyStr (_metric self)))).
  { unfold index_params, row0, getitem. rewrite HM, Hefc.
    destruct X as [|row X]; [congruence|]. simpl.
    eexists. split; [reflexivity|]. destruct Hm as [-> | ->]; reflexivity. }
  destruct Hcfg as (cfg & Hcfg & Hmt).
  destruct Hfit as [e He | cfg' e Hcfg' Hnew | cfg' idx r idx' Hcfg' Hnew Hb].
  - congruence.
  - assert (cfg' = cfg) as -> by congruence. eauto.
  - assert (cfg' = cfg) as -> by congruence. eauto.
Qed.

Lemma fit_reaches_constructor_witness :
  exists cfg rest,
    [EvIndex "hnsw" (demo_config "ip" 2);
     EvBuild (build_args (fit_X (demo_new "ip") demo_X))] = EvIndex "hnsw" cfg :: rest /\
    index_params (demo_new "ip") demo_X = Ok cfg /\
    jfield "metric_type" cfg = Some (JVal (PyStr "ip")).
Proof.
  apply (fit_reaches_constructor (lib := FlatLib) "angular" (PyInt 2) demo_param
           (demo_new "ip") (demo_new "ip") [] [] demo_X _ (Ok tt)
           (demo_built "ip" 2) (fit_X (demo_new "ip") demo_X)).
  - reflexivity.
  - apply run_nil.
  - discriminate.
  - apply (demo_fit "ip").
Defined.

(** X7: when [build] raises, [fit] raises the same exception, but the
    object already holds the new index and, under the ip metric, the
    caller's array is already normalised. *)
Theorem fit_build_failure_effects `{lib : PyVsag}
    (self : Vsag) (X : list (list R)) tr (e : exn) self' X' (c : build_call) :
  fit self X tr (Raise e) self' X' ->
  EvBuild c ∈ tr ->
  X' = fit_X self X /\
  exists cfg idx idx',
    new_Index "hnsw" cfg (Ok idx) /\ build idx c (Raise e) idx' /\
    _index self' = Some idx'.
Proof.
  intros Hfit Hin.
  destruct (fit_build_event _ _ _ _ _ _ _ Hfit Hin) as (-> & -> & _).
  split; [reflexivity|].
  inversion Hfit as [e' He | cfg e' Hcfg Hnew | cfg idx r idx' Hcfg Hnew Hb]; subst.
  - apply elem_of_nil in Hin. contradiction.
  - apply list_elem_of_singleton in Hin. discriminate.
  - exists cfg, idx, idx'. auto.
Qed.

Lemma reject_fit :
  fit (reject_new "ip") demo_X
    [EvIndex "hnsw" (demo_config "ip" 2);
     EvBuild (build_args (fit_X (reject_new "ip") demo_X))]
    (Raise (NativeError "BuildError"))
    (set_index (reject_new "ip") tt) (fit_X (reject_new "ip") demo_X).
Proof.
  apply (fit_build (lib := RejectLib) (reject_new "ip") demo_X _ tt _ tt).
  - reflexivity.
  - reflexivity.
  - constructor.
Qed.

Lemma fit_build_failure_effects_witness :
  fit_X (reject_new "ip") demo_X = fit_X (reject_new "ip") demo_X /\
  exists cfg idx idx',
    @new_Index RejectLib "hnsw" cfg (Ok idx) /\
    @build RejectLib idx (build_args (fit_X (reject_new "ip") demo_X))
      (Raise (NativeError "BuildError")) idx' /\
    _index (set_index (reject_new "ip") tt) = Some idx'.
Proof.
  apply (fit_build_failure_effects (lib := RejectLib) (reject_new "ip") demo_X
           [EvIndex "hnsw" (demo_config "ip" 2);
            EvBuild (build_args (fit_X (reject_new "ip") demo_X))]
           (NativeError "BuildError")
           (set_index (reject_new "ip") tt) (fit_X (reject_new "ip") demo_X)
           (build_args (fit_X (reject_new "ip") demo_X))).
  - exact reject_fit.
  - event_in.
Defined.

(** X8: for a data set of shape [(n, dim)] the [build] call is consistent
    in its sizes: [dim] is the row length, [vectors] holds
    [num_elements * dim] numbers and [ids] holds [num_elements] ids. *)
Theorem build_call_shape `{lib : PyVsag}
    (self : Vsag) (dim : nat) (X : list (list R)) tr r self' X' (c : build_call) :
  rectangular dim X ->
  fit self X tr r self' X' -> EvBuild c ∈ tr ->
  bc_dim c = dim /\
  length (bc_vectors c) = bc_num_elements c * bc_dim c /\
  length (bc_ids c) = bc_num_elements c.
Proof.
  intros Hrect Hfit Hin.
  destruct (fit_build_event _ _ _ _ _ _ _ Hfit Hin) as (-> & -> & Hne).
  pose proof (rectangular_fit_X self dim X Hrect) as Hrect'.
  assert (Hdim : shape1 (fit_X self X) = dim).
  { rewrite shape1_fit_X. apply shape1_rectangular; assumption. }
  unfold build_args. simpl. rewrite Hdim.
  split; [reflexivity|]. split; [apply length_flatten_rectangular; exact Hrect'|].
  unfold arange. rewrite length_fmap, length_seq. reflexivity.
Qed.

Lemma build_call_shape_witness :
  bc_dim (build_args (fit_X (demo_new "l2") demo_X)) = 2 /\
  length (bc_vectors (build_args (fit_X (demo_new "l2") demo_X))) =
    bc_num_elements (build_args (fit_X (demo_new "l2") demo_X)) *
    bc_dim (build_args (fit_X (demo_new "l2") demo_X)) /\
  length (bc_ids (build_args (fit_X (demo_new "l2") demo_X))) =
    bc_num_elements (build_args (fit_X (demo_new "l2") demo_X)).
Proof.
  apply (build_call_shape (lib := FlatLib) (demo_new "l2") 2 demo_X
           [EvIndex "hnsw" (demo_config "l2" 2);
            EvBuild (build_args (fit_X (demo_new "l2") demo_X))]
           (Ok tt) (demo_built "l2" 2) (fit_X (demo_new "l2") demo_X)
           (build_args (fit_X (demo_new "l2") demo_X))).
  - exact demo_X_rectangular.
  - apply (demo_fit "l2").
  - event_in.
Defined.

(** ** More on [query] *)

(** X12: as long as [fit] has not been called on a constructed object,
    [query] raises [AttributeError] (the object has no [_index]) and makes no
    call on the library, whatever [set_query_arguments] or [query] calls
    came before. *)
Theorem query_before_fit `{lib : PyVsag}
    (metric : string) (dim : pyval) (method_param : gmap string pyval)
    (self0 self : Vsag) (os : list op) tr0 (v : list R) (n : pyval) tr r self' :
  __init__ metric dim method_param = Ok self0 ->
  no_fit os -> run self0 os tr0 self ->
  query self v n tr r self' ->
  r = Raise (AttributeError "_index") /\ tr = [] /\ tr0 = [].
Proof.
  intros Hinit Hnf Hrun Hq.
  apply init_Ok_inv in Hinit as (M & efc & u & _ & _ & _ & _ & _ & _ & _ & _ & Hidx0).
  assert (Hall : _index self = None /\ tr0 = []).
  { clear Hq. induction Hrun as [self | self o tr1 self1 os tr2 self2 Hs _ IH]; [auto|].
    apply Forall_cons in Hnf as [Ho Hnf].
    destruct Hs as [X tr1 r1 self1 X' Hfit | ef | v1 n1 tr1 r1 self1 Hq1].
    - contradiction.
    - apply IH; assumption.
    - destruct Hq1 as [Hnone | idx ids dists Hidx Hk | idx e Hidx Hk]; try congruence.
      apply IH; assumption. }
  destruct Hall as [Hnone ->].
  destruct Hq as [_ | idx ids dists Hidx Hk | idx e Hidx Hk]; try congruence. auto.
Qed.

Lemma query_before_fit_witness :
  @Raise (list Z) (AttributeError "_index") = Raise (AttributeError "_index") /\
  @nil event = [] /\ @nil event ++ [] = [].
Proof.
  apply (query_before_fit (lib := FlatLib) "angular" (PyInt 2) demo_param
           (demo_new "ip") (set_query_arguments (demo_new "ip") (PyInt 10))
           [SetQueryArguments (PyInt 10)] ([] ++ []) [3; 4]%R (PyInt 1)
           [] (Raise (AttributeError "_index"))
           (set_query_arguments (demo_new "ip") (PyInt 10))).
  - reflexivity.
  - repeat constructor.
  - eapply run_cons; [apply step_set_query_arguments | apply run_nil].
  - apply query_no_index. reflexivity.
Defined.



(** ** More on sequences of calls *)

Section RunMore.
Context `{lib : PyVsag}.

Lemma last_ef_no_set (d : pyval) (os : list op) :
  existsb is_SetQueryArguments os = false -> last_ef d os = d.
Proof.
  induction os as [|o os IH]; [reflexivity|].
  destruct o; simpl; intros H; try discriminate; auto.
Qed.

Lemma count_app {A : Type} (p : A -> bool) (l k : list A) :
  count p (l ++ k) = count p l + count p k.
Proof. unfold count. rewrite List.filter_app, length_app. reflexivity. Qed.

(** The name after a sequence of calls, from the name before. *)
Lemma run_name (self : Vsag) (os : list op) tr self' :
  run self os tr self' ->
  name self' =
    if existsb is_SetQueryArguments os
    then Fmt "efs_%s_%s" [ArgVal (_ef self'); ArgDict (_params self')]
    else name self.
Proof.
  induction 1 as [self | self o tr self' os tr' self'' Hs Hrun IH]; [reflexivity|].
  rewrite IH. cbn [existsb]. destruct (existsb is_SetQueryArguments os) eqn:Hos.
  - rewrite orb_true_r. reflexivity.
  - rewrite orb_false_r. apply run_ef in Hrun as Hef. apply run_config in Hrun as [_ Hp].
    rewrite last_ef_no_set in Hef by exact Hos.
    destruct Hs as [X tr r self' X' Hfit | ef | v n tr r self' Hq]; simpl.
    + apply fit_frame in Hfit. tauto.
    + rewrite Hef, Hp. reflexivity.
    + apply query_frame in Hq. subst. reflexivity.
Qed.

Lemma init_name (metric : string) (dim : pyval) (method_param : gmap string pyval)
    (self : Vsag) :
  __init__ metric dim method_param = Ok self ->
  name self = Fmt "vsag (%s)" [ArgDict (_params self)].
Proof.
  unfold __init__, getitem. intros H.
  destruct (metric_names !! metric) as [m|]; [|discriminate].
  destruct (method_param !! "M") as [M|]; [|discriminate].
  destruct (method_param !! "ef_construction") as [efc|]; [|discriminate].
  destruct (method_param !! "use_int8") as [u|]; [|discriminate].
  simpl in H. destruct (ne_zero u); simpl in H; injection H as <-; reflexivity.
Qed.

End RunMore.

(** X15: after any sequence of [set_query_arguments] and [query] calls the
    object is the one a single [set_query_arguments] call with the last
    [ef] would have produced, and the object as it was when the sequence
    holds no [set_query_arguments]: earlier values of [ef] leave no trace. *)
Theorem run_no_fit_state `{lib : PyVsag} (self : Vsag) (os : list op) tr self' :
  no_fit os -> run self os tr self' ->
  self' = if existsb is_SetQueryArguments os
          then set_query_arguments self (last_ef (_ef self) os)
          else self.
Proof.
  intros Hnf Hrun.
  induction Hrun as [self | self o tr self' os tr' self'' Hs _ IH]; [reflexivity|].
  apply Forall_cons in Hnf as [Ho Hnf]. specialize (IH Hnf).
  destruct Hs as [X tr r self' X' Hfit | ef | v n tr r self' Hq].
  - contradiction.
  - simpl. rewrite IH. destruct (existsb is_SetQueryArguments os) eqn:Hos.
    + reflexivity.
    + rewrite last_ef_no_set by exact Hos. reflexivity.
  - apply query_frame in Hq. subst self'. simpl. exact IH.
Qed.

Lemma run_no_fit_state_witness :
  set_query_arguments (set_query_arguments (demo_built "ip" 2) (PyInt 10)) (PyInt 40) =
  set_query_arguments (demo_built "ip" 2) (PyInt 40).
Proof.
  apply (run_no_fit_state (lib := FlatLib) (demo_built "ip" 2)
           [SetQueryArguments (PyInt 10); Query [3; 4]%R (PyInt 1);
            SetQueryArguments (PyInt 40)]
           ([] ++ [EvKnn (knn_args (set_query_arguments (demo_built "ip" 2) (PyInt 10))
                            [3; 4]%R (PyInt 1))] ++ [] ++ [])
           (set_query_arguments (set_query_arguments (demo_built "ip" 2) (PyInt 10))
              (PyInt 40))).
  - repeat constructor.
  - eapply run_cons; [apply step_set_query_arguments|].
    eapply run_cons.
    { eapply step_query.
      eapply (query_return (lib := FlatLib)); [reflexivity|].
      apply (flat_knn_ok {| fi_built := true; fi_ids := arange 2 |}). reflexivity. }
    eapply run_cons; [apply step_set_query_arguments|].
    apply run_nil.
Defined.

(** X16: the name of a constructed object always shows its current
    parameters, and its current [ef] once [set_query_arguments] has been
    called: "vsag (params)" before the first such call, "efs_ef_params"
    after it, whatever [fit] and [query] calls come in between. *)
Theorem name_in_sync `{lib : PyVsag}
    (metric : string) (dim : pyval) (method_param : gmap string pyval)
    (self0 self : Vsag) (os : list op) tr :
  __init__ metric dim method_param = Ok self0 ->
  run self0 os tr self ->
  name self =
    if existsb is_SetQueryArguments os
    then Fmt "efs_%s_%s" [ArgVal (_ef self); ArgDict (_params self)]
    else Fmt "vsag (%s)" [ArgDict (_params self)].
Proof.
  intros Hinit Hrun. rewrite (run_name _ _ _ _ Hrun).
  destruct (existsb is_SetQueryArguments os); [reflexivity|].
  apply run_config in Hrun as [_ ->].
  apply (init_name _ _ _ _ Hinit).
Qed.

Lemma name_in_sync_witness :
  name (set_query_arguments (demo_built "ip" 2) (PyInt 40)) =
  Fmt "efs_%s_%s" [ArgVal (PyInt 40); ArgDict demo_params].
Proof.
  apply (name_in_sync (lib := FlatLib) "angular" (PyInt 2) demo_param
           (demo_new "ip") (set_query_arguments (demo_built "ip" 2) (PyInt 40))
           [Fit demo_X; SetQueryArguments (PyInt 40)]
           ([EvIndex "hnsw" (demo_config "ip" 2);
             EvBuild (build_args (fit_X (demo_new "ip") demo_X))] ++ [] ++ [])).
  - reflexivity.
  - eapply run_cons; [eapply step_fit; apply (demo_fit "ip")|].
    eapply run_cons; [apply step_set_query_arguments|].
    apply run_nil.
Defined.

(** X17: the calls on the library follow the calls on the object: at most
    one [knn_search] per [query], at most one constructor call per [fit], a
    [build] only after a constructor call, and none for
    [set_query_arguments]. *)
Theorem trace_discipline `{lib : PyVsag} (self : Vsag) (os : list op) tr self' :
  run self os tr self' ->
  count is_EvKnn tr <= count is_Query os /\
  count is_EvIndex tr <= count is_Fit os /\
  count is_EvBuild tr <= count is_EvIndex tr /\
  length tr <= 2 * count is_Fit os + count is_Query os.
Proof.
  induction 1 as [self | self o tr self' os tr' self'' Hs _ IH].
  - unfold count. simpl. lia.
  - rewrite !count_app, length_app.
    change (o :: os) with ([o] ++ os). rewrite !count_app.
    destruct IH as (IH1 & IH2 & IH3 & IH4).
    destruct Hs as [X tr r self' X' Hfit | ef | v n tr r self' Hq].
    + destruct Hfit; unfold count in *; simpl; lia.
    + unfold count in *; simpl; lia.
    + destruct Hq; unfold count in *; simpl; lia.
Qed.

Lemma trace_discipline_witness :
  count is_EvKnn
    ([EvIndex "hnsw" (demo_config "ip" 2);
      EvBuild (build_args (fit_X (demo_new "ip") demo_X))] ++
     [EvKnn (knn_args (demo_built "ip" 2) [3; 4]%R (PyInt 1))] ++ []) <=
    count is_Query [Fit demo_X; Query [3; 4]%R (PyInt 1)] /\
  count is_EvIndex
    ([EvIndex "hnsw" (demo_config "ip" 2);
      EvBuild (build_args (fit_X (demo_new "ip") demo_X))] ++
     [EvKnn (knn_args (demo_built "ip" 2) [3; 4]%R (PyInt 1))] ++ []) <=
    count is_Fit [Fit demo_X; Query [3; 4]%R (PyInt 1)] /\
  count is_EvBuild
    ([EvIndex "hnsw" (demo_config "ip" 2);
      EvBuild (build_args (fit_X (demo_new "ip") demo_X))] ++
     [EvKnn (knn_args (demo_built "ip" 2) [3; 4]%R (PyInt 1))] ++ []) <=
    count is_EvIndex
      ([EvIndex "hnsw" (demo_config "ip" 2);
        EvBuild (build_args (fit_X (demo_new "ip") demo_X))] ++
       [EvKnn (knn_args (demo_built "ip" 2) [3; 4]%R (PyInt 1))] ++ []) /\
  length
    ([EvIndex "hnsw" (demo_config "ip" 2);
      EvBuild (build_args (fit_X (demo_new "ip") demo_X))] ++
     [EvKnn (knn_args (demo_built "ip" 2) [3; 4]%R (PyInt 1))] ++ []) <=
    2 * count is_Fit [Fit demo_X; Query [3; 4]%R (PyInt 1)] +
    count is_Query [Fit demo_X; Query [3; 4]%R (PyInt 1)].
Proof.
  apply (trace_discipline (lib := FlatLib) (demo_new "ip")
           [Fit demo_X; Query [3; 4]%R (PyInt 1)] _ (demo_built "ip" 2)).
  eapply run_cons; [eapply step_fit; apply (demo_fit "ip")|].
  eapply run_cons; [eapply step_query; apply (demo_query "ip" [3; 4]%R 1)|].
  apply run_nil.
Defined.

(** * Floating point *)

(** ** The rows of [fit], for any floating-point arithmetic *)

Section NumPyRows.
Context `{np : NumPy}.






End NumPyRows.




(** ** binary64 arrays are an instance *)

Lemma ieee_is_0_inv (x : spec_float) :
  ieee_is_0 x = true -> exists s, x = S754_zero s.
Proof.
  unfold ieee_is_0, SFeqb. destruct x as [s | s | | s m e]; simpl.
  - eauto.
  - destruct s; discriminate.
  - discriminate.
  - destruct s; discriminate.
Qed.

Lemma ieee_sum_squares_zeros (v : list spec_float) :
  Forall (fun x => ieee_is_0 x = true) v -> ieee_sum_squares v = S754_zero false.
Proof.
  unfold ieee_sum_squares. induction 1 as [|x v Hx _ IH]; [reflexivity|].
  apply ieee_is_0_inv in Hx as [s ->]. simpl.
  replace (xorb s s) with false by (destruct s; reflexivity). exact IH.
Qed.

Lemma ieee_norm_zeros (v : list spec_float) :
  Forall (fun x => ieee_is_0 x = true) v -> ieee_is_0 (ieee_norm v) = true.
Proof.
  intros Hz. unfold ieee_norm. rewrite ieee_sum_squares_zeros by exact Hz. reflexivity.
Qed.

Lemma ieee_one : binary64 1 0 = S754_finite false 4503599627370496 (-52).
Proof. vm_compute. reflexivity. Qed.

Lemma ieee_divide_one_zero (x : spec_float) :
  ieee_is_0 x = true ->
  ieee_is_0 (ieee_astype_float32 (SFdiv 53 1024 x (binary64 1 0))) = true.
Proof.
  intros Hx. apply ieee_is_0_inv in Hx as [s ->]. rewrite ieee_one. reflexivity.
Qed.

Lemma ieee_is_0_one : ieee_is_0 (binary64 1 0) = false.
Proof. vm_compute. reflexivity. Qed.

Definition IEEE64 : NumPy :=
  {| num := spec_float;
     num32 := spec_float;
     num_one := binary64 1 0;
     is_0 := ieee_is_0;
     is_0_32 := ieee_is_0;
     true_divide := SFdiv 53 1024;
     linalg_norm := ieee_norm;
     linalg_norm_row := ieee_norm;
     inv_sqrt_dim := ieee_inv_sqrt_dim;
     astype_float32 := ieee_astype_float32;
     is_0_one := ieee_is_0_one;
     linalg_norm_zeros := ieee_norm_zeros;
     divide_one_zero := ieee_divide_one_zero |}.

Lemma ieee_X_large_rectangular : np_rectangular 4 ieee_X_large.
Proof. repeat constructor. Qed.


(** ** The vector handed to [knn_search], in floating point *)



(** Two non-zero float64 queries that are handed over as the zero vector:
    the square of 2^-600 underflows, so the norm is [== 0] and the entry
    itself is lost in the cast; the square of 2^600 overflows, so the norm
    is infinite. *)
Example ieee_query_underflow :
  @np_query_vec IEEE64 "ip" [binary64 1 (-600); binary64 0 0] =
  [S754_zero false; S754_zero false].
Proof. vm_compute. reflexivity. Qed.

(** The float64 zero query is handed over as the zero vector. *)
Example ieee_query_zero :
  @np_query_vec IEEE64 "ip" [binary64 0 0; binary64 0 0] =
  [S754_zero false; S754_zero false].
Proof. vm_compute. reflexivity. Qed.

Example ieee_query_overflow :
  @np_query_vec IEEE64 "ip" [binary64 1 600; binary64 0 0] =
  [S754_zero false; S754_zero false].
Proof. vm_compute. reflexivity. Qed.

(** ** The caller's array and the rows handed to [build], in floating point *)






